(** * python_api/examples/demo.py: the lattice demo of the nightshade client

  The script opens a client connection, spawns one camera, spawns a
  4 x 4 x 4 lattice of cubes at coordinates computed in a triple loop,
  asks the server for its cameras, prints them and disconnects.

  The embedding keeps the script's shape.  Python integers are [Z],
  Python floats are IEEE binary64 numbers ([PrimFloat.float]), strings
  are [string].  The calls into the [nightshade] library (and [print])
  are the operations of a small program monad; a run of a program against
  a [world] (library, server and terminal) yields the list of calls
  issued and either a result or the call that raised.

  The script handles no exception.  A run in which every call returns is
  a complete run; a call that raises ends the run at that call.  The
  theorems are about every world: they state what all runs satisfy and
  what, beyond that, the complete runs satisfy. *)

From Stdlib Require Import ZArith List String Ascii QArith Floats.
From Stdlib Require Import DecimalString DecimalZ Lia Bool Permutation Sorted.
Import ListNotations.

(** ** Python values *)

Module Py.

(** [range(n)]: the integers 0, 1, ..., n-1 (empty when [n <= 0]). *)
Definition range (n : Z) : list Z := map Z.of_nat (seq 0 (Z.to_nat n)).

(** The conversion applied to an [int] operand of a mixed [int]/[float]
    operation: the nearest binary64 number, ties to even. *)
Definition float_of_int (z : Z) : float :=
  SF2Prim (binary_normalize prec emax z 0 false).

(** [format(z)] of an [int] inside an f-string: decimal digits, with a
    leading minus sign for a negative number. *)
Definition str_of_int (z : Z) : string := NilEmpty.string_of_int (Z.to_int z).

(** [format(l)] of a list of [int]s: ["[1, 2, 3]"]. *)
Definition str_of_ints (l : list Z) : string :=
  ("[" ++ String.concat ", " (map str_of_int l) ++ "]")%string.

(** The rational number a finite float stands for. *)
Definition exact (f : float) : option Q :=
  match Prim2SF f with
  | S754_zero _ => Some 0%Q
  | S754_finite s m e =>
      Some (inject_Z (if s then Z.neg m else Z.pos m) * Qpower 2 e)%Q
  | S754_infinity _ | S754_nan => None
  end.

(** [f] is finite and stands for the rational [q]. *)
Definition exactly (f : float) (q : Q) : Prop :=
  exists q', exact f = Some q' /\ (q' == q)%Q.

End Py.

(** ** The script's constants and the loop's arithmetic *)

Definition LATTICE_SIZE : Z := 4.
Definition SPACING : float := 1.5%float.

(** [offset = (LATTICE_SIZE - 1) * SPACING / 2] *)
Definition offset : float :=
(Py.float_of_int (LATTICE_SIZE - 1) * SPACING / Py.float_of_int 2)%float.

(** [f"Cube_{x}_{y}_{z}"] *)
Definition cube_name (x y z : Z) : string :=
("Cube_" ++ Py.str_of_int x ++ "_" ++ Py.str_of_int y ++ "_"
         ++ Py.str_of_int z)%string.

(** The spec's formula, over the rationals: [i*S - (N-1)*S/2]. *)
Definition ideal_coordinate (N : Z) (S : Q) (i : Z) : Q :=
(inject_Z i * S - inject_Z (N - 1) * S / 2)%Q.

(** The loop indices in the order the three nested loops visit them. *)
Definition lattice_indices : list (Z * Z * Z) :=
flat_map (fun x =>
  flat_map (fun y =>
    map (fun z => (x, y, z)) (Py.range LATTICE_SIZE))
    (Py.range LATTICE_SIZE))
  (Py.range LATTICE_SIZE).

(** Lexicographic order on index triples. *)
Definition lex_lt (a b : Z * Z * Z) : Prop :=
let '(x, y, z) := a in
let '(x', y', z') := b in
(x < x' \/ (x = x' /\ (y < y' \/ (y = y' /\ z < z'))))%Z.

(** The index triple at the opposite corner. *)
Definition mirror (i : Z * Z * Z) : Z * Z * Z :=
  let '(x, y, z) := i in
  (LATTICE_SIZE - 1 - x, LATTICE_SIZE - 1 - y, LATTICE_SIZE - 1 - z)%Z.

(** The three components of a position. *)
Definition along_x (p : float * float * float) : float := fst (fst p).
Definition along_y (p : float * float * float) : float := snd (fst p).
Definition along_z (p : float * float * float) : float := snd p.

(** No string occurs twice. *)
Fixpoint distinctb (l : list string) : bool :=
  match l with
  | [] => true
  | a :: l' => negb (existsb (String.eqb a) l') && distinctb l'
  end.

(** The character [c] occurs in [s]. *)
Fixpoint occurs (c : ascii) (s : string) : bool :=
  match s with
  | EmptyString => false
  | String a s' => Ascii.eqb a c || occurs c s'
  end.

(** The rank of an index triple in the order of the three loops: [z] runs
    fastest, then [y], then [x]. *)
Definition loop_rank (x y z : Z) : nat :=
  Z.to_nat ((x * LATTICE_SIZE + y) * LATTICE_SIZE + z).

(** ** Programs over the client library *)

Section Client.

(** The client handle, the identifiers the server returns, and the value
    [request_cameras] returns are opaque to the script. *)
Variables (Conn Id Ids : Type).

(** [format(camera_ids)] inside the f-string of the [print] line. *)
Variable format_ids : Ids -> string.

Inductive op : Type :=
| NewClient                                         (* nightshade.Client() *)
| Connect (conn : Conn) (url : string)              (* conn.connect(url) *)
| SpawnCamera (conn : Conn) (x y z : float) (name : string)
| SpawnCube (conn : Conn) (x y z size : float) (name : string)
| RequestCameras (conn : Conn)
| Print (line : string)
| Disconnect (conn : Conn).                         (* conn.disconnect() *)

(** What a call returns. *)
Definition resp (o : op) : Type :=
  match o with
  | NewClient => Conn
  | Connect _ _ => unit
  | SpawnCamera _ _ _ _ _ => Id
  | SpawnCube _ _ _ _ _ _ => Id
  | RequestCameras _ => Ids
  | Print _ => unit
  | Disconnect _ => unit
  end.

(** The calls that go to the server. *)
Definition is_remote (o : op) : bool :=
  match o with
  | NewClient | Print _ => false
  | _ => true
  end.

Definition is_connect (o : op) : bool :=
  match o with Connect _ _ => true | _ => false end.

Definition is_disconnect (o : op) : bool :=
  match o with Disconnect _ => true | _ => false end.

Definition is_spawn_camera (o : op) : bool :=
  match o with SpawnCamera _ _ _ _ _ => true | _ => false end.

Definition is_spawn_cube (o : op) : bool :=
  match o with SpawnCube _ _ _ _ _ _ => true | _ => false end.

(** The handle a remote call is made on. *)
Definition handle (o : op) : option Conn :=
  match o with
  | NewClient | Print _ => None
  | Connect c _ | SpawnCamera c _ _ _ _ | SpawnCube c _ _ _ _ _
  | RequestCameras c | Disconnect c => Some c
  end.

Inductive prog (A : Type) : Type :=
| Ret (a : A)
| Do (o : op) (k : resp o -> prog A).

Arguments Ret {A} a.
Arguments Do {A} o k.

Fixpoint bind {A B} (p : prog A) (f : A -> prog B) : prog B :=
  match p with
  | Ret a => f a
  | Do o k => Do o (fun r => bind (k r) f)
  end.

Definition call (o : op) : prog (resp o) := Do o (fun r => Ret r).

Notation "x <- p ;; q" := (bind p (fun x => q))
  (at level 61, p at next level, right associativity).
Notation "p ;; q" := (bind p (fun _ => q))
  (at level 61, right associativity).

(** [for x in xs: body] *)
Fixpoint for_ {X} (xs : list X) (body : X -> prog unit) : prog unit :=
  match xs with
  | [] => Ret tt
  | x :: xs' => body x ;; for_ xs' body
  end.

(** *** Runs *)

(** How a run ends: normally, or with an uncaught exception out of a
    call, which terminates the script. *)
Inductive outcome (A : Type) : Type :=
| Done (a : A)
| Raised (o : op).

Arguments Done {A} a.
Arguments Raised {A} o.

(** The environment: given the calls issued so far, a call either returns
    a value or raises. *)
Definition world : Type := list op -> forall o : op, option (resp o).

(** [run w h p]: the calls [p] issues, in order, after history [h], and
    how it ends.  A call that raises is part of the trace: it was issued. *)
Fixpoint run {A} (w : world) (h : list op) (p : prog A)
  : list op * outcome A :=
  match p with
  | Ret a => ([], Done a)
  | Do o k =>
      match w h o with
      | None => ([o], Raised o)
      | Some r => let '(t, res) := run w (h ++ [o]) (k r) in (o :: t, res)
      end
  end.

Definition remote_calls (t : list op) : list op := filter is_remote t.

Definition count (f : op -> bool) (t : list op) : nat :=
  List.length (filter f t).

(** *** demo.py *)

(** Lines 14-25: the body of the innermost loop. *)
Definition spawn_at (conn : Conn) (x y z : Z) : prog unit :=
  let pos_x := (Py.float_of_int x * SPACING - offset)%float in
  let pos_y := (Py.float_of_int y * SPACING - offset)%float in
  let pos_z := (Py.float_of_int z * SPACING - offset)%float in
  cube_id <- call (SpawnCube conn pos_x pos_y pos_z 1.0%float
                             (cube_name x y z)) ;;
  Ret tt.

(** Lines 11-25: the three nested loops. *)
Definition lattice (conn : Conn) : prog unit :=
  for_ (Py.range LATTICE_SIZE) (fun x =>
    for_ (Py.range LATTICE_SIZE) (fun y =>
      for_ (Py.range LATTICE_SIZE) (fun z =>
        spawn_at conn x y z))).

(** The whole script. *)
Definition script : prog unit :=
  conn <- call NewClient ;;
  call (Connect conn "ws://localhost:9124") ;;
  camera_id <- call (SpawnCamera conn 0.0%float 10.0%float 15.0%float
                                 "MainCamera") ;;
  lattice conn ;;
  camera_ids <- call (RequestCameras conn) ;;
  call (Print ("Found cameras: " ++ format_ids camera_ids)%string) ;;
  call (Disconnect conn).

Definition trace (w : world) : list op := fst (run w [] script).
Definition result (w : world) : outcome unit := snd (run w [] script).

(** *** What the script is expected to issue *)

(** The coordinate the loop computes for index [i] (lines 15-17). *)
Definition axis (i : Z) : float :=
  (Py.float_of_int i * SPACING - offset)%float.

(** The call of lines 20-25 at an index triple. *)
Definition cube_call (conn : Conn) (i : Z * Z * Z) : op :=
  let '(x, y, z) := i in
  SpawnCube conn (axis x) (axis y) (axis z) 1.0%float (cube_name x y z).

Definition lattice_calls (conn : Conn) : list op :=
  map (cube_call conn) lattice_indices.

Definition camera_call (conn : Conn) : op :=
  SpawnCamera conn 0.0%float 10.0%float 15.0%float "MainCamera".

(** The remote calls of the script in the order of the program text. *)
Definition program_order (conn : Conn) : list op :=
  Connect conn "ws://localhost:9124" :: camera_call conn
    :: lattice_calls conn ++ [RequestCameras conn; Disconnect conn].

(** The line the script prints for a given answer of [request_cameras]. *)
Definition found (camera_ids : Ids) : string :=
  ("Found cameras: " ++ format_ids camera_ids)%string.

(** All the calls of a run that is not cut short, [print] included. *)
Definition full_calls (conn : Conn) (line : string) : list op :=
  NewClient :: Connect conn "ws://localhost:9124" :: camera_call conn
    :: lattice_calls conn
    ++ [RequestCameras conn; Print line; Disconnect conn].

(** [l] is an initial segment of [l']. *)
Definition initial_segment (l l' : list op) : Prop :=
  exists rest, l' = l ++ rest.

(** A program whose calls, arguments included, do not depend on what the
    calls return: [emits p os] when every run of [p] that is not cut short
    issues exactly [os]. *)
Inductive emits {A} : prog A -> list op -> Prop :=
| emits_Ret (a : A) : emits (Ret a) []
| emits_Do (o : op) (k : resp o -> prog A) (os : list op) :
    (forall r, emits (k r) os) -> emits (Do o k) (o :: os).

(** The runs of the script: the client cannot be created; or some call
    raises and cuts the run short; or every call returns. *)
Inductive script_run : list op -> outcome unit -> Prop :=
| run_no_client : script_run [NewClient] (Raised NewClient)
| run_cut_short conn line pre o post :
    full_calls conn line = NewClient :: pre ++ o :: post ->
    (forall l, In (Print l) (pre ++ [o]) -> exists ids, l = found ids) ->
    script_run (NewClient :: pre ++ [o]) (Raised o)
| run_complete conn camera_ids :
    script_run (full_calls conn (found camera_ids)) (Done tt).

(** The positions passed by the [spawn_cube] calls of a trace. *)
Definition position (o : op) : list (float * float * float) :=
  match o with
  | SpawnCube _ x y z _ _ => [(x, y, z)]
  | _ => []
  end.

Definition positions (t : list op) : list (float * float * float) :=
  flat_map position t.

(** The names passed by the [spawn_cube] calls of a trace. *)
Definition cube_names (t : list op) : list string :=
  flat_map (fun o => match o with
                     | SpawnCube _ _ _ _ _ name => [name]
                     | _ => []
                     end) t.

(** *** Some worlds *)

(** Every call returns, always with the same values. *)
Definition obliging (conn : Conn) (i : Id) (ids : Ids) : world :=
  fun _ o =>
    Some (match o return resp o with
          | NewClient => conn
          | Connect _ _ => tt
          | SpawnCamera _ _ _ _ _ => i
          | SpawnCube _ _ _ _ _ _ => i
          | RequestCameras _ => ids
          | Print _ => tt
          | Disconnect _ => tt
          end).

(** The client object is created, but nothing answers: every later call
    raises (no server is listening at the endpoint). *)
Definition unreachable (conn : Conn) : world :=
  fun _ o =>
    match o return option (resp o) with
    | NewClient => Some conn
    | _ => None
    end.

Definition is_print (o : op) : bool :=
  match o with Print _ => true | _ => false end.

(** The calls issued before the script asks for the cameras (lines 3-25). *)
Definition calls_before_request (conn : Conn) : list op :=
  NewClient :: Connect conn "ws://localhost:9124" :: camera_call conn
    :: lattice_calls conn.

(** [w], except that every call after the first [n] raises. *)
Definition failing_after (n : nat) (w : world) : world :=
  fun h o => if (List.length h <? n)%nat then w h o else None.

(** ** Facts about the Python values and the lattice arithmetic *)

Lemma in_range (n x : Z) : In x (Py.range n) <-> (0 <= x < n)%Z.
Proof.
  unfold Py.range. rewrite in_map_iff. split.
  - intros (k & <- & Hk). apply in_seq in Hk. lia.
  - intros Hx. exists (Z.to_nat x). split; [lia | apply in_seq; lia].
Qed.

Lemma in_lattice_indices (x y z : Z) :
  In (x, y, z) lattice_indices <->
  (0 <= x < LATTICE_SIZE /\ 0 <= y < LATTICE_SIZE /\ 0 <= z < LATTICE_SIZE)%Z.
Proof.
  unfold lattice_indices. rewrite in_flat_map. split.
  - intros (x' & Hx & H). apply in_flat_map in H. destruct H as (y' & Hy & H).
    apply in_map_iff in H. destruct H as (z' & E & Hz). inversion E; subst.
    rewrite !in_range in *. auto.
  - intros (Hx & Hy & Hz). exists x. split; [now apply in_range |].
    apply in_flat_map. exists y. split; [now apply in_range |].
    apply in_map_iff. exists z. split; [reflexivity | now apply in_range].
Qed.

(** An index of the lattice is one of 0, 1, 2, 3. *)
Lemma small_index (i : Z) :
  (0 <= i < LATTICE_SIZE)%Z -> i = 0%Z \/ i = 1%Z \/ i = 2%Z \/ i = 3%Z.
Proof. unfold LATTICE_SIZE. lia. Qed.

Ltac each_index H :=
  destruct (small_index _ H) as [-> | [-> | [-> | ->]]].

Lemma lex_lt_trans : Relations_1.Transitive lex_lt.
Proof.
  intros [[x y] z] [[x' y'] z'] [[x'' y''] z'']. unfold lex_lt. lia.
Qed.

Lemma lex_lt_irrefl (a : Z * Z * Z) : ~ lex_lt a a.
Proof. destruct a as [[x y] z]. unfold lex_lt. lia. Qed.

Lemma lattice_indices_sorted : StronglySorted lex_lt lattice_indices.
Proof.
  apply Sorted_StronglySorted; [exact lex_lt_trans |].
  unfold lattice_indices. simpl.
  repeat (constructor; [| first [constructor; unfold lex_lt; lia | constructor]]).
  constructor.
Qed.

Lemma sorted_NoDup (l : list (Z * Z * Z)) : StronglySorted lex_lt l -> NoDup l.
Proof.
  induction 1 as [| a l Hl IH Ha]; constructor; auto.
  intros Hin. rewrite Forall_forall in Ha. exact (lex_lt_irrefl a (Ha _ Hin)).
Qed.

Lemma lattice_indices_NoDup : NoDup lattice_indices.
Proof. exact (sorted_NoDup _ lattice_indices_sorted). Qed.

Lemma lattice_indices_length : List.length lattice_indices = 64%nat.
Proof. reflexivity. Qed.


(** The four coordinates, as floats. *)
Lemma axis_values :
  axis 0 = (-2.25)%float /\ axis 1 = (-0.75)%float /\
  axis 2 = 0.75%float /\ axis 3 = 2.25%float.
Proof. repeat split; vm_compute; reflexivity. Qed.

(** On the lattice the float arithmetic of lines 15-17 is exact: no
    operation rounds. *)
Lemma axis_exact (i : Z) :
  (0 <= i < LATTICE_SIZE)%Z ->
  Py.exactly (axis i) (ideal_coordinate LATTICE_SIZE (3 # 2) i).
Proof.
  intros H. each_index H; eexists; (split; [vm_compute; reflexivity |]);
    vm_compute; reflexivity.
Qed.

(** Mirroring the index negates the coordinate. *)
Lemma axis_mirror (i : Z) :
  (0 <= i < LATTICE_SIZE)%Z ->
  axis (LATTICE_SIZE - 1 - i) = (- axis i)%float.
Proof. intros H. each_index H; vm_compute; reflexivity. Qed.

Lemma axis_bounds (i : Z) :
  (0 <= i < LATTICE_SIZE)%Z ->
  ((-2.25) <=? axis i)%float = true /\ (axis i <=? 2.25)%float = true.
Proof. intros H. each_index H; split; vm_compute; reflexivity. Qed.

(** ** Programs and their runs *)

Lemma emits_call (o : op) : emits (call o) [o].
Proof. unfold call. constructor. intros r. constructor. Qed.

Lemma emits_bind {A B} (p : prog A) (f : A -> prog B) (os os' : list op) :
  emits p os -> (forall a, emits (f a) os') -> emits (bind p f) (os ++ os').
Proof.
  intros Hp Hf. induction Hp as [a | o k os Hk IH]; simpl.
  - apply Hf.
  - constructor. intros r. apply IH.
Qed.

Lemma emits_for {X} (xs : list X) (body : X -> prog unit)
      (calls : X -> list op) :
  (forall x, In x xs -> emits (body x) (calls x)) ->
  emits (for_ xs body) (flat_map calls xs).
Proof.
  induction xs as [| x xs IH]; intros H; simpl.
  - constructor.
  - apply emits_bind.
    + apply H. now left.
    + intros _. apply IH. intros y Hy. apply H. now right.
Qed.

Lemma emits_spawn_at (conn : Conn) (x y z : Z) :
  emits (spawn_at conn x y z) [cube_call conn (x, y, z)].
Proof.
  unfold spawn_at, cube_call, axis.
  apply (emits_bind _ _ [_] []); [apply emits_call | intros _; constructor].
Qed.

Lemma flat_map_single {X Y} (f : X -> Y) (l : list X) :
  flat_map (fun x => [f x]) l = map f l.
Proof. induction l as [| x l IH]; simpl; congruence. Qed.

Lemma map_over_flat_map {X Y V} (f : Y -> V) (g : X -> list Y) (l : list X) :
  map f (flat_map g l) = flat_map (fun x => map f (g x)) l.
Proof.
  induction l as [| x l IH]; simpl; [reflexivity |].
  now rewrite map_app, IH.
Qed.

Lemma emits_lattice (conn : Conn) : emits (lattice conn) (lattice_calls conn).
Proof.
  unfold lattice, lattice_calls, lattice_indices.
  rewrite map_over_flat_map. apply emits_for. intros x _.
  rewrite map_over_flat_map. apply emits_for. intros y _.
  rewrite map_map, <- flat_map_single.
  apply emits_for. intros z _. apply emits_spawn_at.
Qed.

Lemma run_call (w : world) (h : list op) (o : op) :
  run w h (call o) =
  match w h o with
  | Some r => ([o], Done r)
  | None => ([o], Raised o)
  end.
Proof. simpl. destruct (w h o); reflexivity. Qed.

(** A run of [p ;; f]: the run of [p], then, unless it raised, the run of
    [f] after the calls of [p]. *)
Lemma run_bind {A B} (w : world) (p : prog A) (f : A -> prog B) :
  forall h,
    run w h (bind p f) =
    match run w h p with
    | (t, Done a) => let '(t', r) := run w (h ++ t) (f a) in (t ++ t', r)
    | (t, Raised o) => (t, Raised o)
    end.
Proof.
  induction p as [a | o k IH]; intros h; simpl.
  - rewrite app_nil_r. now destruct (run w h (f a)).
  - destruct (w h o) as [r |]; [| reflexivity].
    rewrite IH. destruct (run w (h ++ [o]) (k r)) as [t [a | o']]; simpl.
    + rewrite <- app_assoc. simpl.
      now destruct (run w (h ++ o :: t) (f a)).
    + reflexivity.
Qed.

(** A program that ignores its answers either issues all its calls, or
    stops at the first call that raises. *)
Lemma run_emits {A} (p : prog A) (os : list op) :
  emits p os ->
  forall (w : world) (h : list op),
    (exists a, run w h p = (os, Done a)) \/
    (exists pre o post,
        os = pre ++ o :: post /\ run w h p = (pre ++ [o], Raised o)).
Proof.
  induction 1 as [a | o k os Hk IH]; intros w h; simpl.
  - left. now exists a.
  - destruct (w h o) as [r |].
    + destruct (IH r w (h ++ [o])) as [[a E] | (pre & o' & post & E1 & E2)];
        rewrite ?E, ?E2.
      * left. now exists a.
      * right. exists (o :: pre), o', post. subst os. now split.
    + right. now exists [], o, os.
Qed.

(** The calls of the lattice are the cube calls of its index triples. *)
Lemma in_lattice_calls (conn : Conn) (o : op) :
  In o (lattice_calls conn) <->
  exists x y z, In (x, y, z) lattice_indices /\ o = cube_call conn (x, y, z).
Proof.
  unfold lattice_calls. rewrite in_map_iff. split.
  - intros ([[x y] z] & E & H). now exists x, y, z.
  - intros (x & y & z & H & E). now exists (x, y, z).
Qed.

Lemma lattice_calls_spawn_cube (conn : Conn) (o : op) :
  In o (lattice_calls conn) -> is_spawn_cube o = true.
Proof.
  intros H. apply in_lattice_calls in H.
  destruct H as (x & y & z & _ & ->). reflexivity.
Qed.

Ltac not_a_cube H :=
  apply lattice_calls_spawn_cube in H; discriminate H.

Opaque lattice_calls.

(** Every run of the script has one of the three shapes of [script_run]. *)
Theorem script_runs (w : world) : script_run (trace w) (result w).
Proof.
  unfold trace, result, script.
  rewrite run_bind, run_call.
  destruct (w [] NewClient) as [conn |]; [| constructor].
  rewrite run_bind, run_call. simpl app.
  destruct (w _ (Connect conn _)) as [[] |].
  2:{ simpl. apply (run_cut_short conn "" [] _ _ eq_refl).
      intros l [E | []]. discriminate E. }
  rewrite run_bind, run_call. simpl app.
  destruct (w _ (SpawnCamera conn _ _ _ _)) as [camera_id |].
  2:{ simpl. apply (run_cut_short conn "" [_] _ _ eq_refl).
      intros l [E | [E | []]]; discriminate E. }
  rewrite run_bind.
  destruct (run_emits _ _ (emits_lattice conn) w
              [NewClient; Connect conn "ws://localhost:9124"; camera_call conn])
    as [[[] E] | (pre & o & post & E1 & E2)].
  2:{ unfold camera_call in E2. rewrite E2. simpl.
      apply (run_cut_short conn "" (_ :: _ :: pre) o
               (post ++ [RequestCameras conn; Print ""; Disconnect conn])).
      - unfold full_calls. rewrite E1, <- app_assoc. reflexivity.
      - intros l Hl. exfalso.
        assert (Hin : In (Print l) (lattice_calls conn)).
        { rewrite E1. simpl in Hl. destruct Hl as [E | [E | Hl]];
            try discriminate E.
          apply in_app_iff in Hl. apply in_app_iff.
          destruct Hl as [Hl | [<- | []]]; [now left | right; now left]. }
        not_a_cube Hin. }
  unfold camera_call in E. rewrite E. clear E.
  rewrite run_bind, run_call.
  destruct (w _ (RequestCameras conn)) as [camera_ids |].
  2:{ simpl.
      apply (run_cut_short conn "" (_ :: _ :: lattice_calls conn) _
               [Print ""; Disconnect conn]).
      - unfold full_calls. simpl. now rewrite <- ?app_assoc.
      - intros l Hl. exfalso. simpl in Hl.
        destruct Hl as [E | [E | Hl]]; try discriminate E.
        apply in_app_iff in Hl. destruct Hl as [Hl | [E | []]];
          [not_a_cube Hl | discriminate E]. }
  rewrite run_bind, run_call.
  destruct (w _ (Print _)) as [[] |].
  2:{ simpl.
      apply (run_cut_short conn (found camera_ids)
               (_ :: _ :: lattice_calls conn ++ [RequestCameras conn]) _
               [Disconnect conn]).
      - unfold full_calls. simpl. now rewrite <- ?app_assoc.
      - intros l Hl. exists camera_ids. simpl in Hl.
        destruct Hl as [E | [E | Hl]]; try discriminate E.
        rewrite <- app_assoc in Hl.
        apply in_app_iff in Hl. destruct Hl as [Hl | [E | [E | []]]];
          [not_a_cube Hl | discriminate E | now injection E]. }
  rewrite (run_call w _ (Disconnect conn)
           : @run unit w _ (call (Disconnect conn)) = _).
  destruct (w _ (Disconnect conn)) as [[] |].
  - simpl. apply run_complete.
  - simpl.
    pose proof (run_cut_short conn (found camera_ids)
               (Connect conn "ws://localhost:9124" :: camera_call conn
                  :: lattice_calls conn
                  ++ [RequestCameras conn; Print (found camera_ids)])
               (Disconnect conn) []) as R.
    simpl in R. rewrite <- !app_assoc in R. simpl in R. apply R.
    + reflexivity.
    + intros l Hl. exists camera_ids.
      destruct Hl as [E | [E | Hl]]; try discriminate E.
      apply in_app_iff in Hl.
      destruct Hl as [Hl | [E | [E | [E | []]]]];
        try discriminate E; [not_a_cube Hl | now injection E].
Qed.

Transparent lattice_calls.

Lemma fst_let {A} (X : list op * outcome A) (o : op) :
  fst (let '(t, res) := X in (o :: t, res)) = o :: fst X.
Proof. now destruct X. Qed.

(** The script starts by creating the client and connecting on it. *)
Lemma run_starts (w : world) (conn : Conn) :
  w [] NewClient = Some conn ->
  exists rest,
    trace w = NewClient :: Connect conn "ws://localhost:9124" :: rest.
Proof.
  intros H. unfold trace, script. cbn [bind call run].
  rewrite H, fst_let.
  destruct (w _ (Connect conn _)) as [[] |];
    [rewrite fst_let |]; eexists; reflexivity.
Qed.

Lemma run_without_client (w : world) :
  w [] NewClient = None ->
  trace w = [NewClient] /\ result w = Raised NewClient.
Proof.
  intros H. unfold trace, result, script. rewrite run_bind, run_call, H.
  now split.
Qed.

(** With a client, the trace is an initial segment of [full_calls]: all of
    it when the run completes, and up to the raising call otherwise. *)
Lemma run_with_client (w : world) (conn : Conn) :
  w [] NewClient = Some conn ->
  exists line rest,
    trace w ++ rest = full_calls conn line /\
    (result w = Done tt -> rest = [] /\ exists ids, line = found ids) /\
    (forall o, result w = Raised o -> exists pre, trace w = pre ++ [o]).
Proof.
  intros H. destruct (run_starts w conn H) as [tl Etl].
  pose proof (script_runs w) as R.
  remember (trace w) as t eqn:Et. remember (result w) as r eqn:Er.
  destruct R as [| conn' line pre o post Efull Hprint | conn' ids].
  - discriminate Etl.
  - exists line, post.
    assert (conn' = conn) as ->.
    { unfold full_calls in Efull. destruct pre as [| a pre]; simpl in *.
      - injection Etl as Etl _. injection Efull as Efull _. congruence.
      - injection Etl as Etl _. injection Efull as Efull _. congruence. }
    split; [| split].
    + rewrite Efull. simpl. now rewrite <- app_assoc.
    + intros E. discriminate E.
    + intros o' E. injection E as ->. now exists (NewClient :: pre).
  - exists (found ids), []. rewrite app_nil_r.
    assert (conn' = conn) as ->.
    { unfold full_calls in Etl. injection Etl as Etl _. exact Etl. }
    split; [reflexivity | split].
    + intros _. split; [reflexivity | now exists ids].
    + intros o E. discriminate E.
Qed.

(** ** The calls of a complete run *)

Lemma count_app (f : op -> bool) (l l' : list op) :
  count f (l ++ l') = (count f l + count f l')%nat.
Proof. unfold count. now rewrite filter_app, length_app. Qed.

Lemma count_full_calls (conn : Conn) (line : string) :
  count is_connect (full_calls conn line) = 1%nat /\
  count is_disconnect (full_calls conn line) = 1%nat /\
  count is_spawn_camera (full_calls conn line) = 1%nat /\
  count is_spawn_cube (full_calls conn line) = 64%nat.
Proof. repeat split; reflexivity. Qed.

Lemma remote_full_calls (conn : Conn) (line : string) :
  remote_calls (full_calls conn line) = program_order conn.
Proof. reflexivity. Qed.

(** Every remote call of a complete run is made on the one handle. *)
Lemma handle_full_calls (conn : Conn) (line : string) (o : op) :
  In o (full_calls conn line) -> is_remote o = true -> handle o = Some conn.
Proof.
  unfold full_calls. intros Hin Hr.
  destruct Hin as [<- | [<- | [<- | Hin]]]; try reflexivity;
    try discriminate Hr.
  apply in_app_iff in Hin. destruct Hin as [Hin | Hin].
  - apply in_lattice_calls in Hin. destruct Hin as (x & y & z & _ & ->).
    reflexivity.
  - destruct Hin as [<- | [<- | [<- | []]]]; try reflexivity.
    discriminate Hr.
Qed.

(** The [spawn_cube] calls of a complete run are those of the lattice. *)
Lemma cube_in_full_calls (conn : Conn) (line : string) (o : op) :
  In o (full_calls conn line) -> is_spawn_cube o = true ->
  In o (lattice_calls conn).
Proof.
  unfold full_calls. intros Hin Hc.
  destruct Hin as [<- | [<- | [<- | Hin]]]; try discriminate Hc.
  apply in_app_iff in Hin. destruct Hin as [Hin | Hin]; [exact Hin |].
  destruct Hin as [<- | [<- | [<- | []]]]; discriminate Hc.
Qed.

(** *** Initial segments *)

Lemma segment_count (f : op -> bool) (t rest full : list op) :
  t ++ rest = full -> (count f t <= count f full)%nat.
Proof. intros <-. rewrite count_app. lia. Qed.

Lemma segment_remote (t rest full : list op) :
  t ++ rest = full -> initial_segment (remote_calls t) (remote_calls full).
Proof.
  intros <-. exists (remote_calls rest). unfold remote_calls.
  now rewrite filter_app.
Qed.

Lemma segment_in (t rest full : list op) (o : op) :
  t ++ rest = full -> In o t -> In o full.
Proof. intros <- H. apply in_app_iff. now left. Qed.

Lemma segments_comparable (l1 l2 full : list op) :
  initial_segment l1 full -> initial_segment l2 full ->
  initial_segment l1 l2 \/ initial_segment l2 l1.
Proof.
  revert l2 full. induction l1 as [| a l1 IH]; intros l2 full [r1 E1] [r2 E2].
  - left. now exists l2.
  - destruct l2 as [| b l2].
    + right. now exists (a :: l1).
    + subst full. simpl in E2. injection E2 as -> E2.
      destruct (IH l2 (l1 ++ r1)) as [[r E] | [r E]].
      * now exists r1.
      * now exists r2.
      * left. exists r. now rewrite E.
      * right. exists r. now rewrite E.
Qed.

(** The count of a predicate across a split. *)
Lemma count_split (f : op -> bool) (pre post : list op) (o : op) :
  count f (pre ++ o :: post) =
  (count f pre + (if f o then 1 else 0) + count f post)%nat.
Proof.
  rewrite count_app. unfold count. simpl. destruct (f o); simpl; lia.
Qed.

(** A list whose only element satisfying [f] is its last one can only be
    split at an [f]-element at its end. *)
Lemma split_at_last (f : op -> bool) (front : list op) (d : op) :
  count f front = 0%nat ->
  forall pre o post,
    front ++ [d] = pre ++ o :: post -> f o = true -> post = [] /\ pre = front.
Proof.
  induction front as [| a front IH]; intros H0 pre o post E Ho.
  - destruct pre as [| b pre]; simpl in E.
    + injection E as _ <-. now split.
    + injection E as _ E. now destruct pre.
  - unfold count in H0. simpl in H0.
    destruct (f a) eqn:Ha; [discriminate H0 |].
    destruct pre as [| b pre]; simpl in E.
    + injection E as <- _. congruence.
    + injection E as <- E. destruct (IH H0 pre o post E Ho) as [-> ->].
      now split.
Qed.

(** ** Every run *)

(** Either the client cannot be created, or the trace is an initial
    segment of the calls of a complete run on the client's handle. *)
Lemma any_run (w : world) :
  (trace w = [NewClient] /\ result w = Raised NewClient) \/
  (exists conn line rest,
      w [] NewClient = Some conn /\ trace w ++ rest = full_calls conn line).
Proof.
  destruct (w [] NewClient) as [conn |] eqn:H.
  - right. destruct (run_with_client w conn H) as (line & rest & E & _).
    now exists conn, line, rest.
  - left. now apply run_without_client.
Qed.

(** A run in which no call raises issues all the calls. *)
Lemma complete_run (w : world) :
  result w = Done tt ->
  exists conn ids,
    w [] NewClient = Some conn /\ trace w = full_calls conn (found ids).
Proof.
  intros HD. destruct (w [] NewClient) as [conn |] eqn:H.
  - destruct (run_with_client w conn H) as (line & rest & E & Hd & _).
    destruct (Hd HD) as (-> & ids & ->). rewrite app_nil_r in E.
    now exists conn, ids.
  - apply run_without_client in H. destruct H as [_ H]. congruence.
Qed.

(** ** The lattice *)

Lemma distinctb_NoDup (l : list string) : distinctb l = true -> NoDup l.
Proof.
  induction l as [| a l IH]; simpl; intros H; constructor.
  - apply andb_prop in H. destruct H as [H _].
    apply negb_true_iff in H. intros Hin.
    assert (existsb (String.eqb a) l = true) as E; [| congruence].
    apply existsb_exists. exists a. split; [exact Hin | apply String.eqb_refl].
  - apply IH. apply andb_prop in H. tauto.
Qed.

Lemma positions_lattice (conn : Conn) :
  positions (lattice_calls conn) =
  map (fun '(x, y, z) => (axis x, axis y, axis z)) lattice_indices.
Proof.
  unfold lattice_calls, positions.
  induction lattice_indices as [| [[x y] z] l IH]; simpl; congruence.
Qed.

Lemma cube_names_lattice (conn : Conn) :
  cube_names (lattice_calls conn) =
  map (fun '(x, y, z) => cube_name x y z) lattice_indices.
Proof.
  unfold lattice_calls, cube_names.
  induction lattice_indices as [| [[x y] z] l IH]; simpl; congruence.
Qed.

Lemma mirror_in_lattice (i : Z * Z * Z) :
  In i lattice_indices <-> In (mirror i) lattice_indices.
Proof.
  destruct i as [[x y] z]. unfold mirror.
  rewrite !in_lattice_indices. unfold LATTICE_SIZE. lia.
Qed.

Lemma mirror_involutive (i : Z * Z * Z) : mirror (mirror i) = i.
Proof. destruct i as [[x y] z]. unfold mirror. f_equal; [f_equal |]; lia. Qed.

(** Mirroring permutes the lattice. *)
Lemma mirror_permutes : Permutation (map mirror lattice_indices) lattice_indices.
Proof.
  apply NoDup_Permutation.
  - apply Finite.Injective_map_NoDup; [| exact lattice_indices_NoDup].
    intros a b E. rewrite <- (mirror_involutive a), E.
    apply mirror_involutive.
  - exact lattice_indices_NoDup.
  - intros i. rewrite in_map_iff. split.
    + intros (j & <- & Hj). exact (proj1 (mirror_in_lattice j) Hj).
    + intros Hi. exists (mirror i). split; [apply mirror_involutive |].
      exact (proj1 (mirror_in_lattice i) Hi).
Qed.

(** Along each axis, negating the coordinates of the lattice permutes them. *)
Lemma negation_permutes (proj : Z * Z * Z -> Z) :
  (forall i, In i lattice_indices -> (0 <= proj i < LATTICE_SIZE)%Z) ->
  (forall i, proj (mirror i) = (LATTICE_SIZE - 1 - proj i)%Z) ->
  Permutation (map PrimFloat.opp (map (fun i => axis (proj i)) lattice_indices))
              (map (fun i => axis (proj i)) lattice_indices).
Proof.
  intros Hrange Hmirror. rewrite map_map.
  rewrite (map_ext_in _ (fun i => axis (proj (mirror i)))).
  - rewrite <- (map_map mirror (fun i => axis (proj i))).
    apply Permutation_map. exact mirror_permutes.
  - intros i Hi. rewrite Hmirror. symmetry. apply axis_mirror.
    now apply Hrange.
Qed.

(** ** The order of the calls of a complete run *)

(** A complete run ends with its only [disconnect]. *)
Lemma full_calls_end (conn : Conn) (line : string) :
  exists front,
    full_calls conn line = front ++ [Disconnect conn] /\
    count is_disconnect front = 0%nat.
Proof.
  exists (NewClient :: Connect conn "ws://localhost:9124" :: camera_call conn
            :: lattice_calls conn ++ [RequestCameras conn; Print line]).
  split; reflexivity.
Qed.

Lemma connect_first (conn : Conn) (line : string) (pre post : list op)
      (o : op) :
  full_calls conn line = pre ++ o :: post ->
  is_remote o = true ->
  is_connect o = true \/ existsb is_connect pre = true.
Proof.
  unfold full_calls. intros E Hr.
  destruct pre as [| a [| b pre]]; cbn [app] in E.
  - injection E as <- _. discriminate Hr.
  - injection E as _ <- _. now left.
  - injection E as <- <- _. now right.
Qed.

Lemma disconnect_last (conn : Conn) (line : string) (pre post : list op)
      (o : op) :
  full_calls conn line = pre ++ o :: post ->
  is_disconnect o = true ->
  post = [].
Proof.
  intros E Ho. destruct (full_calls_end conn line) as (front & Ef & H0).
  rewrite Ef in E.
  now destruct (split_at_last is_disconnect front _ H0 pre o post E Ho).
Qed.

Lemma camera_in_full_calls (conn : Conn) (line : string) (o : op) :
  In o (full_calls conn line) -> is_spawn_camera o = true ->
  o = camera_call conn.
Proof.
  unfold full_calls. intros Hin Hc.
  destruct Hin as [<- | [<- | [<- | Hin]]]; try discriminate Hc;
    [reflexivity |].
  apply in_app_iff in Hin. destruct Hin as [Hin | Hin].
  - apply lattice_calls_spawn_cube in Hin. now destruct o.
  - destruct Hin as [<- | [<- | [<- | []]]]; discriminate Hc.
Qed.

Lemma camera_before_cube (conn : Conn) (line : string) (pre post : list op)
      (o : op) :
  full_calls conn line = pre ++ o :: post ->
  is_spawn_cube o = true ->
  count is_spawn_camera pre = 1%nat /\ count is_spawn_camera post = 0%nat.
Proof.
  intros E Ho.
  assert (Hsum : (count is_spawn_camera pre + count is_spawn_camera post
                  = 1)%nat).
  { pose proof (count_full_calls conn line) as (_ & _ & H1 & _).
    rewrite E, count_split in H1.
    replace (is_spawn_camera o) with false in H1 by (now destruct o). lia. }
  assert (Hpre : (1 <= count is_spawn_camera pre)%nat).
  { unfold full_calls in E.
    destruct pre as [| a [| b [| c pre]]]; cbn [app] in E.
    - injection E as <- _. discriminate Ho.
    - injection E as _ <- _. discriminate Ho.
    - injection E as _ _ <- _. discriminate Ho.
    - injection E as <- <- <- _. unfold count. simpl. lia. }
  lia.
Qed.

(** A trace that stops short of the final [disconnect] has no
    [disconnect] at all. *)
Lemma proper_segment (t rest front : list op) (d : op) :
  t ++ rest = front ++ [d] -> rest <> [] -> exists rest', t ++ rest' = front.
Proof.
  intros E Hne. destruct (exists_last Hne) as (rest' & e & ->).
  rewrite app_assoc in E. apply app_inj_tail in E. destruct E as [E _].
  now exists rest'.
Qed.

(** When a call raises, it is the last call of the run. *)
Lemma raised_run (w : world) (o : op) :
  result w = Raised o -> exists pre, trace w = pre ++ [o].
Proof.
  intros HR. destruct (w [] NewClient) as [conn |] eqn:H.
  - destruct (run_with_client w conn H) as (line & rest & _ & _ & Hr).
    now apply Hr.
  - apply run_without_client in H. destruct H as [Et Er].
    exists []. rewrite Et. simpl. congruence.
Qed.

(** The run in which the client cannot be created issues one call. *)
Lemma split_single (a o : op) (pre post : list op) :
  [a] = pre ++ o :: post -> pre = [] /\ o = a /\ post = [].
Proof.
  destruct pre as [| b pre]; simpl; intros E.
  - now injection E as <- <-.
  - injection E as _ E. now destruct pre.
Qed.

(** ** The claims about the lattice arithmetic *)

(** C1.  For loop indices [x], [y], [z] in [0, LATTICE_SIZE), the call the
    loop body issues passes positions [pos_x], [pos_y], [pos_z] that are
    the floats [index * SPACING - offset], and each of them is, exactly,
    the rational [i*S - (N-1)*S/2] of the spec, for [N = 4] and
    [S = 3/2] (the value of [SPACING]). *)
Theorem coordinate_formula (conn : Conn) (x y z : Z) :
  (0 <= x < LATTICE_SIZE)%Z ->
  (0 <= y < LATTICE_SIZE)%Z ->
  (0 <= z < LATTICE_SIZE)%Z ->
  Py.exactly SPACING (3 # 2) /\
  exists pos_x pos_y pos_z,
    emits (spawn_at conn x y z)
          [SpawnCube conn pos_x pos_y pos_z 1.0%float (cube_name x y z)] /\
    pos_x = (Py.float_of_int x * SPACING - offset)%float /\
    pos_y = (Py.float_of_int y * SPACING - offset)%float /\
    pos_z = (Py.float_of_int z * SPACING - offset)%float /\
    Py.exactly pos_x (ideal_coordinate LATTICE_SIZE (3 # 2) x) /\
    Py.exactly pos_y (ideal_coordinate LATTICE_SIZE (3 # 2) y) /\
    Py.exactly pos_z (ideal_coordinate LATTICE_SIZE (3 # 2) z).
Proof.
  intros Hx Hy Hz. split.
  - eexists. split; vm_compute; reflexivity.
  - exists (axis x), (axis y), (axis z).
    split; [exact (emits_spawn_at conn x y z) |].
    repeat (split; [reflexivity |]).
    auto using axis_exact.
Qed.

(** C2.  The three loops issue one [spawn_cube] call per index triple, for
    the 64 distinct triples of [0,4)^3, and the 64 names
    ["Cube_{x}_{y}_{z}"] are pairwise distinct; a run in which no call
    raises issues exactly these 64 [spawn_cube] calls. *)
Theorem sixty_four_cubes_distinct_names (conn : Conn) :
  emits (lattice conn) (map (cube_call conn) lattice_indices) /\
  List.length lattice_indices = 64%nat /\
  List.length (positions (map (cube_call conn) lattice_indices)) = 64%nat /\
  NoDup lattice_indices /\
  (forall x y z,
      In (x, y, z) lattice_indices <->
      (0 <= x < 4 /\ 0 <= y < 4 /\ 0 <= z < 4)%Z) /\
  cube_names (map (cube_call conn) lattice_indices) =
    map (fun '(x, y, z) => cube_name x y z) lattice_indices /\
  NoDup (map (fun '(x, y, z) => cube_name x y z) lattice_indices) /\
  (forall w : world,
      result w = Done tt ->
      count is_spawn_cube (trace w) = 64%nat /\
      NoDup (cube_names (trace w))).
Proof.
  assert (Hnames :
    NoDup (map (fun '(x, y, z) => cube_name x y z) lattice_indices)).
  { apply distinctb_NoDup. vm_compute. reflexivity. }
  split; [exact (emits_lattice conn) |].
  split; [exact lattice_indices_length |].
  split; [exact (f_equal (@List.length _) (positions_lattice conn)) |].
  split; [exact lattice_indices_NoDup |].
  split; [exact in_lattice_indices |].
  split; [exact (cube_names_lattice conn) |].
  split; [exact Hnames |].
  intros w HD. destruct (complete_run w HD) as (c & ids & _ & ->).
  split; [apply count_full_calls |].
  replace (cube_names (full_calls c (found ids)))
    with (cube_names (lattice_calls c)).
  - rewrite cube_names_lattice. exact Hnames.
  - unfold full_calls, cube_names. cbn [flat_map app camera_call].
    rewrite flat_map_app. cbn [flat_map app]. now rewrite app_nil_r.
Qed.

(** C3.  With [LATTICE_SIZE = 4] and [SPACING = 1.5] the offset is the
    float 2.25, index 0 maps to -2.25 and index 3 to 2.25, and these floats
    are exactly the rationals 9/4, -9/4 and 9/4. *)
Theorem offset_and_extreme_coordinates :
  LATTICE_SIZE = 4%Z /\ SPACING = 1.5%float /\
  offset = 2.25%float /\ Py.exactly offset (9 # 4) /\
  (Py.float_of_int 0 * SPACING - offset)%float = (-2.25)%float /\
  Py.exactly (Py.float_of_int 0 * SPACING - offset)%float (- 9 # 4) /\
  (Py.float_of_int 3 * SPACING - offset)%float = 2.25%float /\
  Py.exactly (Py.float_of_int 3 * SPACING - offset)%float (9 # 4).
Proof.
  repeat split; try (vm_compute; reflexivity);
    eexists; split; vm_compute; reflexivity.
Qed.

(** C4.  The grid is symmetric about the origin: with every position
    [(a, b, c)] passed by the lattice's [spawn_cube] calls, the position
    [(-a, -b, -c)] is passed too, and along each axis negation permutes the
    coordinates passed (with their multiplicities). *)
Theorem lattice_symmetric (conn : Conn) :
  emits (lattice conn) (lattice_calls conn) /\
  (forall a b c,
      In (a, b, c) (positions (lattice_calls conn)) ->
      In (- a, - b, - c)%float (positions (lattice_calls conn))) /\
  Permutation (map PrimFloat.opp (map along_x (positions (lattice_calls conn))))
              (map along_x (positions (lattice_calls conn))) /\
  Permutation (map PrimFloat.opp (map along_y (positions (lattice_calls conn))))
              (map along_y (positions (lattice_calls conn))) /\
  Permutation (map PrimFloat.opp (map along_z (positions (lattice_calls conn))))
              (map along_z (positions (lattice_calls conn))).
Proof.
  split; [exact (emits_lattice conn) |].
  rewrite positions_lattice. split.
  - intros a b c H. apply in_map_iff in H.
    destruct H as ([[x y] z] & E & Hi). injection E as <- <- <-.
    pose proof (proj1 (in_lattice_indices x y z) Hi) as (Hx & Hy & Hz).
    apply in_map_iff. exists (mirror (x, y, z)). split.
    + cbv beta iota delta [mirror]. now rewrite !axis_mirror.
    + exact (proj1 (mirror_in_lattice (x, y, z)) Hi).
  - set (pos := fun '(x, y, z) => (axis x, axis y, axis z)).
    assert (Ex : map along_x (map pos lattice_indices) =
                 map (fun i => axis (fst (fst i))) lattice_indices).
    { rewrite map_map. apply map_ext. now intros [[x y] z]. }
    assert (Ey : map along_y (map pos lattice_indices) =
                 map (fun i => axis (snd (fst i))) lattice_indices).
    { rewrite map_map. apply map_ext. now intros [[x y] z]. }
    assert (Ez : map along_z (map pos lattice_indices) =
                 map (fun i => axis (snd i)) lattice_indices).
    { rewrite map_map. apply map_ext. now intros [[x y] z]. }
    rewrite Ex, Ey, Ez.
    repeat split; apply negation_permutes;
      try (intros [[x y] z]; reflexivity);
      intros [[x y] z] Hi; apply in_lattice_indices in Hi; simpl; tauto.
Qed.

(** ** The claims about the calls of a run *)

(** C5.  The remote calls of every run are issued in program order:
    [connect], one [spawn_camera], the 64 [spawn_cube] calls in
    lexicographic order of their loop indices, [request_cameras],
    [disconnect].  Whatever the world answers, the remote calls issued are
    an initial segment of that sequence, and all of it when no call
    raises. *)
Theorem calls_in_program_order (w : world) :
  (forall conn,
      program_order conn =
      [Connect conn "ws://localhost:9124";
       SpawnCamera conn 0.0%float 10.0%float 15.0%float "MainCamera"]
        ++ map (cube_call conn) lattice_indices
        ++ [RequestCameras conn; Disconnect conn]) /\
  StronglySorted lex_lt lattice_indices /\
  List.length lattice_indices = 64%nat /\
  (remote_calls (trace w) = [] \/
   exists conn,
     initial_segment (remote_calls (trace w)) (program_order conn)) /\
  (result w = Done tt ->
   exists conn, remote_calls (trace w) = program_order conn).
Proof.
  split; [reflexivity |].
  split; [exact lattice_indices_sorted |].
  split; [exact lattice_indices_length |]. split.
  - destruct (any_run w) as [[E _] | (conn & line & rest & _ & E)].
    + left. now rewrite E.
    + right. exists conn. rewrite <- (remote_full_calls conn line).
      exact (segment_remote _ _ _ E).
  - intros HD. destruct (complete_run w HD) as (conn & ids & _ & ->).
    exists conn. apply remote_full_calls.
Qed.

(** C6, as the code has it.  In every run [connect] and [disconnect] are
    called at most once, no remote call precedes [connect], no call
    follows [disconnect], all remote calls are made on the same handle,
    and [connect] is called exactly once as soon as the client object
    exists; in every complete run [connect] and [disconnect] are each
    called exactly once. *)
Theorem one_connection (w : world) :
  (count is_connect (trace w) <= 1)%nat /\
  (count is_disconnect (trace w) <= 1)%nat /\
  (forall pre o post,
      trace w = pre ++ o :: post -> is_remote o = true ->
      is_connect o = true \/ existsb is_connect pre = true) /\
  (forall pre o post,
      trace w = pre ++ o :: post -> is_disconnect o = true -> post = []) /\
  (forall o o',
      In o (trace w) -> In o' (trace w) ->
      is_remote o = true -> is_remote o' = true -> handle o = handle o') /\
  (forall conn,
      w [] NewClient = Some conn -> count is_connect (trace w) = 1%nat) /\
  (result w = Done tt ->
   count is_connect (trace w) = 1%nat /\
   count is_disconnect (trace w) = 1%nat).
Proof.
  assert (Hcomplete : result w = Done tt ->
                      count is_connect (trace w) = 1%nat /\
                      count is_disconnect (trace w) = 1%nat).
  { intros HD. destruct (complete_run w HD) as (conn' & ids & _ & ->).
    pose proof (count_full_calls conn' (found ids)). tauto. }
  destruct (any_run w) as [[E Er] | (conn & line & rest & Hc & E)].
  - assert (Hnone : forall conn, w [] NewClient <> Some conn).
    { intros conn Hconn. destruct (run_starts w conn Hconn) as [tl Etl].
      rewrite E in Etl. discriminate Etl. }
    rewrite E in *.
    split; [unfold count; simpl; lia |].
    split; [unfold count; simpl; lia |].
    split; [| split; [| split; [| split]]].
    + intros pre o post Ep Hr.
      destruct (split_single _ _ _ _ Ep) as (_ & -> & _). discriminate Hr.
    + intros pre o post Ep _. now destruct (split_single _ _ _ _ Ep).
    + intros o o' [<- | []] _ Hr. discriminate Hr.
    + intros conn Hconn. now destruct (Hnone conn).
    + exact Hcomplete.
  - pose proof (count_full_calls conn line) as (Hcon & Hdis & _).
    assert (Hle : (count is_connect (trace w) <= 1)%nat).
    { rewrite <- Hcon. exact (segment_count _ _ _ _ E). }
    split; [exact Hle |].
    split; [rewrite <- Hdis; exact (segment_count _ _ _ _ E) |].
    split; [| split; [| split; [| split]]].
    + intros pre o post Ep. rewrite Ep, <- app_assoc in E. simpl in E.
      exact (connect_first _ _ _ _ _ (eq_sym E)).
    + intros pre o post Ep Ho. rewrite Ep, <- app_assoc in E. simpl in E.
      pose proof (disconnect_last _ _ _ _ _ (eq_sym E) Ho) as Hnil.
      now apply app_eq_nil in Hnil.
    + intros o o' Ho Ho' Hr Hr'.
      rewrite (handle_full_calls conn line o (segment_in _ _ _ _ E Ho) Hr).
      now rewrite
        (handle_full_calls conn line o' (segment_in _ _ _ _ E Ho') Hr').
    + intros conn' Hconn. destruct (run_starts w conn' Hconn) as [tl Etl].
      rewrite Etl in *. unfold count in *. simpl in *. lia.
    + exact Hcomplete.
Qed.

(** C7, as the code has it.  [disconnect] is the last call of every run in
    which no call raises.  When a call raises, the script stops at that
    call: if the raising call is not [disconnect] itself, [disconnect] is
    never called. *)
Theorem disconnect_only_when_nothing_raises (w : world) :
  (result w = Done tt ->
   exists conn pre,
     trace w = pre ++ [Disconnect conn] /\
     count is_disconnect pre = 0%nat) /\
  (forall o,
      result w = Raised o ->
      (exists pre, trace w = pre ++ [o]) /\
      (is_disconnect o = false ->
       count is_disconnect (trace w) = 0%nat)).
Proof.
  split.
  - intros HD. destruct (complete_run w HD) as (conn & ids & _ & ->).
    destruct (full_calls_end conn (found ids)) as (front & E & H0).
    now exists conn, front.
  - intros o HR. split; [now apply raised_run |]. intros Ho.
    destruct (raised_run w o HR) as [pre Et].
    destruct (any_run w) as [[E _] | (conn & line & rest & _ & E)].
    + now rewrite E.
    + destruct (full_calls_end conn line) as (front & Ef & H0).
      rewrite Ef in E. destruct rest as [| r rest].
      * rewrite app_nil_r, Et in E. apply app_inj_tail in E.
        destruct E as [_ ->]. discriminate Ho.
      * destruct (proper_segment _ _ _ _ E) as [rest' E']; [discriminate |].
        pose proof (segment_count is_disconnect _ _ _ E'). lia.
Qed.

(** C8.  The remote calls do not depend on what the server answers.  For
    two runs on the same client handle, against worlds that may answer
    every call differently, the remote calls of one run are an initial
    segment of those of the other; when no call raises in either run, the
    remote calls and all their arguments are the same, and the two traces
    differ at most in the printed line. *)
Theorem calls_independent_of_answers (w1 w2 : world) (conn : Conn) :
  w1 [] NewClient = Some conn ->
  w2 [] NewClient = Some conn ->
  (initial_segment (remote_calls (trace w1)) (remote_calls (trace w2)) \/
   initial_segment (remote_calls (trace w2)) (remote_calls (trace w1))) /\
  (result w1 = Done tt -> result w2 = Done tt ->
   remote_calls (trace w1) = remote_calls (trace w2) /\
   exists ids1 ids2,
     trace w1 = full_calls conn (found ids1) /\
     trace w2 = full_calls conn (found ids2)).
Proof.
  intros H1 H2.
  destruct (run_with_client w1 conn H1) as (l1 & r1 & E1 & D1 & _).
  destruct (run_with_client w2 conn H2) as (l2 & r2 & E2 & D2 & _).
  split.
  - apply (segments_comparable _ _ (program_order conn)).
    + rewrite <- (remote_full_calls conn l1). exact (segment_remote _ _ _ E1).
    + rewrite <- (remote_full_calls conn l2). exact (segment_remote _ _ _ E2).
  - intros HD1 HD2.
    destruct (D1 HD1) as (-> & ids1 & ->).
    destruct (D2 HD2) as (-> & ids2 & ->).
    rewrite app_nil_r in E1, E2. rewrite E1, E2. split.
    + now rewrite !remote_full_calls.
    + now exists ids1, ids2.
Qed.

(** C9.  One camera, spawned first.  Every [spawn_camera] call of a run
    passes position (0.0, 10.0, 15.0) and name "MainCamera"; there is at
    most one, and exactly one when no call raises; and every [spawn_cube]
    call is issued after it. *)
Theorem one_camera_before_cubes (w : world) :
  (count is_spawn_camera (trace w) <= 1)%nat /\
  (forall o,
      In o (trace w) -> is_spawn_camera o = true ->
      exists conn,
        o = SpawnCamera conn 0.0%float 10.0%float 15.0%float "MainCamera") /\
  (forall pre o post,
      trace w = pre ++ o :: post -> is_spawn_cube o = true ->
      count is_spawn_camera pre = 1%nat /\
      count is_spawn_camera post = 0%nat) /\
  (result w = Done tt -> count is_spawn_camera (trace w) = 1%nat).
Proof.
  destruct (any_run w) as [[E Er] | (conn & line & rest & _ & E)].
  - rewrite E, Er.
    split; [unfold count; simpl; lia |].
    split; [| split].
    + intros o [<- | []] Ho. discriminate Ho.
    + intros pre o post Ep Ho.
      destruct (split_single _ _ _ _ Ep) as (_ & -> & _). discriminate Ho.
    + discriminate.
  - pose proof (count_full_calls conn line) as (_ & _ & Hc & _).
    split; [rewrite <- Hc; exact (segment_count _ _ _ _ E) |].
    split; [| split].
    + intros o Ho Hcam. exists conn.
      exact (camera_in_full_calls conn line o (segment_in _ _ _ _ E Ho) Hcam).
    + intros pre o post Ep Ho. rewrite Ep, <- app_assoc in E. simpl in E.
      destruct (camera_before_cube _ _ _ _ _ (eq_sym E) Ho) as [Hpre Hpost].
      rewrite count_app in Hpost. split; [exact Hpre | lia].
    + intros HD. destruct (complete_run w HD) as (conn' & ids & _ & ->).
      pose proof (count_full_calls conn' (found ids)). tauto.
Qed.

(** C10.  Every [spawn_cube] call of every run passes size 1.0 and a
    position whose three components lie in [-2.25, 2.25]. *)
Theorem cube_size_and_bounds (w : world) (conn : Conn)
        (x y z size : float) (name : string) :
  In (SpawnCube conn x y z size name) (trace w) ->
  size = 1.0%float /\
  ((-2.25) <=? x)%float = true /\ (x <=? 2.25)%float = true /\
  ((-2.25) <=? y)%float = true /\ (y <=? 2.25)%float = true /\
  ((-2.25) <=? z)%float = true /\ (z <=? 2.25)%float = true.
Proof.
  intros Hin. destruct (any_run w) as [[E _] | (c & line & rest & _ & E)].
  - rewrite E in Hin. destruct Hin as [H | []]. discriminate H.
  - apply (segment_in _ _ _ _ E) in Hin.
    apply cube_in_full_calls in Hin; [| reflexivity].
    apply in_lattice_calls in Hin.
    destruct Hin as (i & j & k & Hi & Ecall).
    injection Ecall as -> -> -> -> -> _.
    apply in_lattice_indices in Hi. destruct Hi as (Hi & Hj & Hk).
    split; [reflexivity |].
    pose proof (axis_bounds i Hi). pose proof (axis_bounds j Hj).
    pose proof (axis_bounds k Hk). tauto.
Qed.

(** ** More about the runs *)

(** In a complete run the world has answered every call; the handle and
    the camera list of the trace are the world's answers. *)
Lemma complete_run_answers (w : world) :
  result w = Done tt ->
  exists conn camera_ids,
    w [] NewClient = Some conn /\
    w (calls_before_request conn) (RequestCameras conn) = Some camera_ids /\
    trace w = full_calls conn (found camera_ids).
Proof.
  unfold trace, result, script.
  rewrite run_bind, run_call.
  destruct (w [] NewClient) as [conn |] eqn:Hconn; [| discriminate].
  rewrite run_bind, run_call. simpl app.
  destruct (w _ (Connect conn _)) as [[] |]; [| discriminate].
  rewrite run_bind, run_call. simpl app.
  destruct (w _ (SpawnCamera conn _ _ _ _)) as [camera_id |];
    [| discriminate].
  rewrite run_bind.
  destruct (run_emits _ _ (emits_lattice conn) w
              [NewClient; Connect conn "ws://localhost:9124"; camera_call conn])
    as [[[] E] | (pre & o & post & E1 & E2)].
  2:{ unfold camera_call in E2. rewrite E2. discriminate. }
  unfold camera_call in E. rewrite E. clear E.
  rewrite run_bind, run_call.
  change ([NewClient; Connect conn "ws://localhost:9124";
           SpawnCamera conn 0 10 15 "MainCamera"] ++ lattice_calls conn)
    with (calls_before_request conn).
  destruct (w _ (RequestCameras conn)) as [camera_ids |] eqn:Hids;
    [| discriminate].
  rewrite run_bind, run_call.
  destruct (w _ (Print _)) as [[] |]; [| discriminate].
  rewrite (run_call w _ (Disconnect conn)
           : @run unit w _ (call (Disconnect conn)) = _).
  destruct (w _ (Disconnect conn)) as [[] |]; [| discriminate].
  intros _. exists conn, camera_ids.
  split; [reflexivity | split; [exact Hids |]].
  unfold full_calls, found. simpl. now rewrite <- ?app_assoc.
Qed.

(** X1.  What is printed.  In a run in which no call raises, [print] is
    called once, between [request_cameras] and [disconnect], and its line
    is "Found cameras: " followed by the formatted value that
    [request_cameras] returned in this run; no run prints twice. *)
Theorem printed_line_is_the_answer (w : world) :
  (count is_print (trace w) <= 1)%nat /\
  (result w = Done tt ->
   exists conn camera_ids,
     w [] NewClient = Some conn /\
     w (calls_before_request conn) (RequestCameras conn) = Some camera_ids /\
     trace w =
       calls_before_request conn
         ++ [RequestCameras conn;
             Print ("Found cameras: " ++ format_ids camera_ids)%string;
             Disconnect conn] /\
     count is_print (trace w) = 1%nat).
Proof.
  split.
  - destruct (any_run w) as [[E _] | (conn & line & rest & _ & E)].
    + rewrite E. unfold count. simpl. lia.
    + apply (segment_count is_print) in E.
      replace (count is_print (full_calls conn line)) with 1%nat in E
        by reflexivity.
      exact E.
  - intros HD.
    destruct (complete_run_answers w HD) as (conn & ids & Hc & Hids & Et).
    exists conn, ids. rewrite Et.
    split; [exact Hc | split; [exact Hids | split; reflexivity]].
Qed.

(** X2.  The identifiers returned by [spawn_camera] and [spawn_cube] are
    never used.  Two runs in which no call raises, on the same handle and
    with the same answer to [request_cameras], issue the same calls with
    the same arguments, the printed line included, whatever the spawn
    calls returned. *)
Theorem spawn_ids_are_never_used (w1 w2 : world) (conn : Conn) :
  result w1 = Done tt ->
  result w2 = Done tt ->
  w1 [] NewClient = Some conn ->
  w2 [] NewClient = Some conn ->
  w1 (calls_before_request conn) (RequestCameras conn) =
  w2 (calls_before_request conn) (RequestCameras conn) ->
  trace w1 = trace w2.
Proof.
  intros HD1 HD2 Hc1 Hc2 Hsame.
  destruct (complete_run_answers w1 HD1) as (c1 & ids1 & Hc1' & Hids1 & ->).
  destruct (complete_run_answers w2 HD2) as (c2 & ids2 & Hc2' & Hids2 & ->).
  assert (c1 = conn) as -> by congruence.
  assert (c2 = conn) as -> by congruence.
  assert (ids1 = ids2) as -> by congruence.
  reflexivity.
Qed.

(** X8.  Every remote call of every run is made on the handle that
    [nightshade.Client()] returned; when the client cannot be created no
    remote call is issued. *)
Theorem remote_calls_use_the_client (w : world) :
  (forall conn o,
      w [] NewClient = Some conn ->
      In o (trace w) -> is_remote o = true -> handle o = Some conn) /\
  (w [] NewClient = None -> remote_calls (trace w) = []).
Proof.
  split.
  - intros conn o Hc Ho Hr.
    destruct (run_with_client w conn Hc) as (line & rest & E & _).
    exact (handle_full_calls conn line o (segment_in _ _ _ _ E Ho) Hr).
  - intros Hnone. apply run_without_client in Hnone.
    destruct Hnone as [-> _]. reflexivity.
Qed.

(** ** The names *)

Lemma str_of_int_injective (a b : Z) :
  Py.str_of_int a = Py.str_of_int b -> a = b.
Proof.
  unfold Py.str_of_int. intros E.
  apply (f_equal NilEmpty.int_of_string) in E.
  rewrite !NilEmpty.isi in E. injection E as E.
  now apply DecimalZ.to_int_inj.
Qed.

Lemma no_underscore_in_digits (d : Decimal.uint) :
  occurs "_" (NilEmpty.string_of_uint d) = false.
Proof. induction d; simpl; auto. Qed.

(** The decimal form of an integer has no underscore. *)
Lemma no_underscore_in_int (z : Z) : occurs "_" (Py.str_of_int z) = false.
Proof.
  unfold Py.str_of_int, NilEmpty.string_of_int.
  destruct (Z.to_int z); simpl; apply no_underscore_in_digits.
Qed.

(** Two strings cut at the first occurrence of a separator are equal only
    if the parts are. *)
Lemma split_at_separator (c : ascii) (s1 s2 r1 r2 : string) :
  occurs c s1 = false -> occurs c s2 = false ->
  (s1 ++ String c r1 = s2 ++ String c r2)%string ->
  s1 = s2 /\ r1 = r2.
Proof.
  revert s2. induction s1 as [| a s1 IH]; intros [| b s2] H1 H2 E;
    simpl in *.
  - injection E as ->. now split.
  - injection E as -> _. rewrite Ascii.eqb_refl in H2. discriminate H2.
  - injection E as -> _. rewrite Ascii.eqb_refl in H1. discriminate H1.
  - injection E as -> E.
    apply orb_false_elim in H1. apply orb_false_elim in H2.
    destruct (IH s2 (proj2 H1) (proj2 H2) E) as [-> ->]. now split.
Qed.

(** Equal names have equal decimal parts. *)
Lemma cube_name_parts (x y z x' y' z' : Z) :
  cube_name x y z = cube_name x' y' z' ->
  Py.str_of_int x = Py.str_of_int x' /\
  Py.str_of_int y = Py.str_of_int y' /\
  Py.str_of_int z = Py.str_of_int z'.
Proof.
  unfold cube_name. intros E. simpl in E.
  injection E as E.
  apply split_at_separator in E; try apply no_underscore_in_int.
  destruct E as [Ex E].
  apply split_at_separator in E; try apply no_underscore_in_int.
  tauto.
Qed.

(** X3.  The name is unique: [f"Cube_{x}_{y}_{z}"] is the same string for
    two index triples only if the triples are the same, for all integers
    and not only for the indices of the 4 x 4 x 4 lattice. *)
Theorem cube_name_injective (x y z x' y' z' : Z) :
  cube_name x y z = cube_name x' y' z' -> x = x' /\ y = y' /\ z = z'.
Proof.
  intros E. apply cube_name_parts in E. destruct E as (Ex & Ey & Ez).
  auto using str_of_int_injective.
Qed.

(** ** The positions *)

(** Different indices give different coordinates. *)
Lemma axis_injective (i j : Z) :
  (0 <= i < LATTICE_SIZE)%Z -> (0 <= j < LATTICE_SIZE)%Z ->
  axis i = axis j -> i = j.
Proof.
  intros Hi Hj. each_index Hi; each_index Hj; try reflexivity;
    intros E; exfalso; apply (f_equal Prim2SF) in E; vm_compute in E;
    discriminate E.
Qed.

Lemma cube_call_injective (conn : Conn) (i j : Z * Z * Z) :
  cube_call conn i = cube_call conn j -> i = j.
Proof.
  destruct i as [[x y] z], j as [[x' y'] z']. unfold cube_call. intros E.
  assert (En : cube_name x y z = cube_name x' y' z') by congruence.
  apply cube_name_parts in En. destruct En as (Ex & Ey & Ez).
  apply str_of_int_injective in Ex, Ey, Ez. congruence.
Qed.

Lemma lattice_calls_NoDup (conn : Conn) : NoDup (lattice_calls conn).
Proof.
  unfold lattice_calls. apply Finite.Injective_map_NoDup_in.
  - intros i j _ _. apply cube_call_injective.
  - exact lattice_indices_NoDup.
Qed.

Lemma lattice_positions_NoDup (conn : Conn) :
  NoDup (positions (lattice_calls conn)).
Proof.
  rewrite positions_lattice. apply Finite.Injective_map_NoDup_in.
  - intros [[x y] z] [[x' y'] z'] Hi Hj E. injection E as Ex Ey Ez.
    apply in_lattice_indices in Hi, Hj.
    apply axis_injective in Ex, Ey, Ez; try tauto. congruence.
  - exact lattice_indices_NoDup.
Qed.

Lemma positions_full_calls (conn : Conn) (line : string) :
  positions (full_calls conn line) = positions (lattice_calls conn).
Proof.
  unfold full_calls, positions. cbn [flat_map app camera_call position].
  rewrite flat_map_app. cbn [flat_map app position]. apply app_nil_r.
Qed.

(** X4.  No two cubes coincide.  In every run the positions passed by the
    [spawn_cube] calls are pairwise distinct, and two [spawn_cube] calls of
    a run that have the same name, or the same position, are the same
    call. *)
Theorem cubes_do_not_coincide (w : world) :
  NoDup (positions (trace w)) /\
  (forall c x y z size name c' x' y' z' size' name',
      In (SpawnCube c x y z size name) (trace w) ->
      In (SpawnCube c' x' y' z' size' name') (trace w) ->
      name = name' \/ (x, y, z) = (x', y', z') ->
      SpawnCube c x y z size name = SpawnCube c' x' y' z' size' name').
Proof.
  destruct (any_run w) as [[E _] | (conn & line & rest & _ & E)].
  - rewrite E. split; [constructor |].
    intros c x y z size name c' x' y' z' size' name' [H | []].
    discriminate H.
  - split.
    + pose proof (lattice_positions_NoDup conn) as HN.
      rewrite <- (positions_full_calls conn line), <- E in HN.
      unfold positions in HN. rewrite flat_map_app in HN.
      exact (NoDup_app_remove_r _ _ HN).
    + intros c x y z size name c' x' y' z' size' name' H H' Hsame.
      apply (segment_in _ _ _ _ E) in H, H'.
      apply cube_in_full_calls in H, H'; try reflexivity.
      apply in_lattice_calls in H, H'.
      destruct H as (i & j & k & Hi & Ei).
      destruct H' as (i' & j' & k' & Hi' & Ei').
      rewrite Ei, Ei'. f_equal.
      injection Ei as _ -> -> -> _ ->. injection Ei' as _ -> -> -> _ ->.
      apply in_lattice_indices in Hi, Hi'.
      destruct Hsame as [Hn | Hp].
      * apply cube_name_parts in Hn. destruct Hn as (Ex & Ey & Ez).
        apply str_of_int_injective in Ex, Ey, Ez. congruence.
      * injection Hp as Ex Ey Ez.
        apply axis_injective in Ex, Ey, Ez; try tauto. congruence.
Qed.

(** X5.  The lattice is evenly spaced.  The coordinates of two
    consecutive indices differ by [SPACING], exactly, and those of two
    different indices by [SPACING] at least. *)
Theorem evenly_spaced :
  (forall i,
      (0 <= i < LATTICE_SIZE - 1)%Z ->
      (axis (i + 1) - axis i)%float = SPACING) /\
  (forall i j,
      (0 <= i < LATTICE_SIZE)%Z -> (0 <= j < LATTICE_SIZE)%Z -> i <> j ->
      (SPACING <=? abs (axis i - axis j))%float = true).
Proof.
  split.
  - intros i Hi.
    assert (Hi' : (0 <= i < LATTICE_SIZE)%Z) by (unfold LATTICE_SIZE in *; lia).
    each_index Hi'; vm_compute; reflexivity.
  - intros i j Hi Hj Hne.
    each_index Hi; each_index Hj; try (vm_compute; reflexivity);
      now destruct Hne.
Qed.

(** ** The order of the loops and the runs that are cut short *)

(** The index triple of rank [loop_rank x y z] is [(x, y, z)]. *)
Lemma index_at_rank (x y z : Z) :
  (0 <= x < LATTICE_SIZE)%Z ->
  (0 <= y < LATTICE_SIZE)%Z ->
  (0 <= z < LATTICE_SIZE)%Z ->
  nth_error lattice_indices (loop_rank x y z) = Some (x, y, z).
Proof.
  intros Hx Hy Hz. each_index Hx; each_index Hy; each_index Hz; reflexivity.
Qed.

Lemma call_at_rank (conn : Conn) (x y z : Z) :
  (0 <= x < LATTICE_SIZE)%Z ->
  (0 <= y < LATTICE_SIZE)%Z ->
  (0 <= z < LATTICE_SIZE)%Z ->
  nth_error (lattice_calls conn) (loop_rank x y z)
  = Some (cube_call conn (x, y, z)).
Proof.
  intros Hx Hy Hz. unfold lattice_calls.
  apply map_nth_error. now apply index_at_rank.
Qed.

Lemma cubes_of_full_calls (conn : Conn) (line : string) :
  filter is_spawn_cube (full_calls conn line) = lattice_calls conn.
Proof. reflexivity. Qed.

(** X6.  The order of the three loops.  In a run in which no call raises,
    the [spawn_cube] call for the indices [(x, y, z)] is the one of rank
    [(x * LATTICE_SIZE + y) * LATTICE_SIZE + z] among the [spawn_cube]
    calls: [z] runs fastest and [x] slowest. *)
Theorem cube_rank_in_a_complete_run (w : world) (x y z : Z) :
  (0 <= x < LATTICE_SIZE)%Z ->
  (0 <= y < LATTICE_SIZE)%Z ->
  (0 <= z < LATTICE_SIZE)%Z ->
  result w = Done tt ->
  exists conn,
    nth_error (filter is_spawn_cube (trace w)) (loop_rank x y z)
    = Some (SpawnCube conn
              (Py.float_of_int x * SPACING - offset)%float
              (Py.float_of_int y * SPACING - offset)%float
              (Py.float_of_int z * SPACING - offset)%float
              1.0%float (cube_name x y z)).
Proof.
  intros Hx Hy Hz HD. destruct (complete_run w HD) as (conn & ids & _ & ->).
  exists conn. rewrite cubes_of_full_calls.
  exact (call_at_rank conn x y z Hx Hy Hz).
Qed.

Lemma full_calls_NoDup (conn : Conn) (line : string) :
  NoDup (full_calls conn line).
Proof.
  unfold full_calls.
  change (NoDup ([NewClient; Connect conn "ws://localhost:9124";
                  camera_call conn]
                   ++ lattice_calls conn
                   ++ [RequestCameras conn; Print line; Disconnect conn])).
  apply NoDup_app; [| apply NoDup_app |].
  - repeat constructor; simpl; intuition discriminate.
  - apply lattice_calls_NoDup.
  - repeat constructor; simpl; intuition discriminate.
  - intros o Ho Hin. apply lattice_calls_spawn_cube in Ho.
    destruct Hin as [<- | [<- | [<- | []]]]; discriminate Ho.
  - intros o Ho Hin. apply in_app_iff in Hin.
    destruct Hin as [Hin | Hin].
    + apply lattice_calls_spawn_cube in Hin.
      destruct Ho as [<- | [<- | [<- | []]]]; discriminate Hin.
    + destruct Ho as [<- | [<- | [<- | []]]];
        destruct Hin as [E | [E | [E | []]]]; discriminate E.
Qed.

(** In a list without repetition an element cuts the list in one way. *)
Lemma NoDup_cut_unique (a : op) (l1 l2 l1' l2' : list op) :
  NoDup (l1 ++ a :: l2) -> l1 ++ a :: l2 = l1' ++ a :: l2' -> l1 = l1'.
Proof.
  revert l1'. induction l1 as [| b l1 IH]; intros [| b' l1'] HN E;
    simpl in *.
  - reflexivity.
  - injection E as <- E. apply NoDup_cons_iff in HN. destruct HN as [HN _].
    exfalso. apply HN. rewrite E. apply in_elt.
  - injection E as -> E. apply NoDup_cons_iff in HN. destruct HN as [HN _].
    exfalso. apply HN. apply in_elt.
  - injection E as -> E. apply NoDup_cons_iff in HN. destruct HN as [_ HN].
    f_equal. now apply (IH l1').
Qed.

Lemma firstn_through (a : op) (l1 l2 : list op) :
  firstn (S (List.length l1)) (l1 ++ a :: l2) = l1 ++ [a].
Proof. rewrite <- Nat.add_1_r. now rewrite firstn_app_2. Qed.

(** X7.  A run cut short in the lattice.  When the [spawn_cube] call for
    the indices [(x, y, z)] raises, the run has issued the client creation,
    [connect], [spawn_camera] and the [spawn_cube] calls up to and
    including that one, in loop order, and nothing else: no later cube, no
    [request_cameras], no [print], no [disconnect]. *)
Theorem run_cut_short_at_a_cube (w : world) (conn : Conn) (x y z : Z) :
  (0 <= x < LATTICE_SIZE)%Z ->
  (0 <= y < LATTICE_SIZE)%Z ->
  (0 <= z < LATTICE_SIZE)%Z ->
  result w = Raised (cube_call conn (x, y, z)) ->
  trace w =
    NewClient :: Connect conn "ws://localhost:9124" :: camera_call conn
      :: firstn (S (loop_rank x y z)) (lattice_calls conn).
Proof.
  intros Hx Hy Hz HR.
  destruct (w [] NewClient) as [c |] eqn:Hc.
  2:{ apply run_without_client in Hc. destruct Hc as [_ Hc].
      rewrite Hc in HR. discriminate HR. }
  destruct (run_with_client w c Hc) as (line & rest & E & _ & Hr).
  destruct (Hr _ HR) as [pre Et].
  assert (c = conn) as ->.
  { assert (Hin : In (cube_call conn (x, y, z)) (full_calls c line)).
    { rewrite <- E, Et. apply in_app_iff. left. apply in_app_iff. right.
      now left. }
    apply handle_full_calls in Hin; [| reflexivity].
    simpl in Hin. congruence. }
  destruct (nth_error_split _ _ (call_at_rank conn x y z Hx Hy Hz))
    as (l1 & l2 & El & Hlen).
  rewrite Et, <- app_assoc in E. cbn [app] in E.
  assert (Epre : pre = [NewClient; Connect conn "ws://localhost:9124";
                        camera_call conn] ++ l1).
  { apply (NoDup_cut_unique (cube_call conn (x, y, z)) pre rest _
             (l2 ++ [RequestCameras conn; Print line; Disconnect conn])).
    - rewrite E. apply full_calls_NoDup.
    - rewrite E. unfold full_calls. rewrite El, <- !app_assoc. reflexivity. }
  rewrite Et, Epre, El, <- Hlen, firstn_through, <- app_assoc. reflexivity.
Qed.

End Client.

Arguments NewClient {Conn}.
Arguments Connect {Conn} conn url.
Arguments SpawnCamera {Conn} conn x y z name.
Arguments SpawnCube {Conn} conn x y z size name.
Arguments RequestCameras {Conn} conn.
Arguments Print {Conn} line.
Arguments Disconnect {Conn} conn.
Arguments Done {Conn A} a.
Arguments Raised {Conn A} o.
Arguments trace {Conn Id Ids} format_ids w.
Arguments result {Conn Id Ids} format_ids w.

(** ** Runs against concrete worlds

    Handles are numbers, identifiers are integers, [request_cameras]
    returns a list of integers, printed as Python prints it. *)

(** C1 at the loop indices (1, 2, 3). *)
Lemma coordinate_formula_at_1_2_3 :
  Py.exactly SPACING (3 # 2) /\
  exists pos_x pos_y pos_z,
    emits nat Z (list Z) (spawn_at nat Z (list Z) 7%nat 1 2 3)
          [SpawnCube 7%nat pos_x pos_y pos_z 1.0%float "Cube_1_2_3"] /\
    pos_x = (Py.float_of_int 1 * SPACING - offset)%float /\
    pos_y = (Py.float_of_int 2 * SPACING - offset)%float /\
    pos_z = (Py.float_of_int 3 * SPACING - offset)%float /\
    Py.exactly pos_x (ideal_coordinate LATTICE_SIZE (3 # 2) 1) /\
    Py.exactly pos_y (ideal_coordinate LATTICE_SIZE (3 # 2) 2) /\
    Py.exactly pos_z (ideal_coordinate LATTICE_SIZE (3 # 2) 3).
Proof.
  apply (coordinate_formula nat Z (list Z) 7%nat 1 2 3);
    unfold LATTICE_SIZE; lia.
Defined.

(** C2 in a world in which every call returns: the run issues the 64
    [spawn_cube] calls, under 64 different names. *)
Lemma cubes_of_a_complete_run :
  count nat (is_spawn_cube nat)
        (trace Py.str_of_ints (obliging nat Z (list Z) 7%nat 1%Z [1%Z]))
    = 64%nat /\
  NoDup (cube_names nat
           (trace Py.str_of_ints (obliging nat Z (list Z) 7%nat 1%Z [1%Z]))).
Proof.
  destruct (sixty_four_cubes_distinct_names nat Z (list Z) Py.str_of_ints
              7%nat) as (_ & _ & _ & _ & _ & _ & _ & H).
  apply H. vm_compute. reflexivity.
Defined.

(** C5 in a world in which every call returns. *)
Lemma program_order_of_a_complete_run :
  exists conn : nat,
    remote_calls nat
      (trace Py.str_of_ints (obliging nat Z (list Z) 7%nat 1%Z [1%Z])) =
    program_order nat conn.
Proof.
  destruct (calls_in_program_order nat Z (list Z) Py.str_of_ints
              (obliging nat Z (list Z) 7%nat 1%Z [1%Z]))
    as (_ & _ & _ & _ & H).
  apply H. vm_compute. reflexivity.
Defined.

(** C6, as claimed, fails: [connect] and [disconnect] are not called
    exactly once in every execution.  When no server listens at the
    endpoint, [connect] raises: it has been called once and [disconnect]
    is never called.  When [nightshade.Client()] itself raises, neither is
    called. *)
Lemma connection_not_closed_when_a_call_raises :
  (result Py.str_of_ints (unreachable nat Z (list Z) 7%nat)
     = Raised (Connect 7%nat "ws://localhost:9124") /\
   count nat (is_connect nat)
         (trace Py.str_of_ints (unreachable nat Z (list Z) 7%nat)) = 1%nat /\
   count nat (is_disconnect nat)
         (trace Py.str_of_ints (unreachable nat Z (list Z) 7%nat)) = 0%nat) /\
  (result Py.str_of_ints
          (failing_after nat Z (list Z) 0
             (obliging nat Z (list Z) 7%nat 1%Z [1%Z]))
     = Raised NewClient /\
   count nat (is_connect nat)
         (trace Py.str_of_ints
                (failing_after nat Z (list Z) 0
                   (obliging nat Z (list Z) 7%nat 1%Z [1%Z]))) = 0%nat /\
   count nat (is_disconnect nat)
         (trace Py.str_of_ints
                (failing_after nat Z (list Z) 0
                   (obliging nat Z (list Z) 7%nat 1%Z [1%Z]))) = 0%nat).
Proof. repeat split; vm_compute; reflexivity. Qed.

(** C6 as the code has it, in a world in which every call returns. *)
Lemma one_connection_of_a_complete_run :
  count nat (is_connect nat)
        (trace Py.str_of_ints (obliging nat Z (list Z) 7%nat 1%Z [1%Z]))
    = 1%nat /\
  count nat (is_disconnect nat)
        (trace Py.str_of_ints (obliging nat Z (list Z) 7%nat 1%Z [1%Z]))
    = 1%nat.
Proof.
  destruct (one_connection nat Z (list Z) Py.str_of_ints
              (obliging nat Z (list Z) 7%nat 1%Z [1%Z]))
    as (_ & _ & _ & _ & _ & _ & H).
  apply H. vm_compute. reflexivity.
Defined.

(** C7, as claimed, fails: when no server listens at the endpoint,
    [connect] raises, the script terminates, and [disconnect] is never
    called.  The same happens when a later call raises, here the eleventh
    call of the run (a [spawn_cube]). *)
Lemma disconnect_skipped_when_a_call_raises :
  (result Py.str_of_ints (unreachable nat Z (list Z) 7%nat)
     = Raised (Connect 7%nat "ws://localhost:9124") /\
   trace Py.str_of_ints (unreachable nat Z (list Z) 7%nat)
     = [NewClient; Connect 7%nat "ws://localhost:9124"] /\
   count nat (is_disconnect nat)
         (trace Py.str_of_ints (unreachable nat Z (list Z) 7%nat)) = 0%nat) /\
  (result Py.str_of_ints
          (failing_after nat Z (list Z) 10
             (obliging nat Z (list Z) 7%nat 1%Z [1%Z]))
     = Raised (SpawnCube 7%nat (-2.25)%float (-0.75)%float 2.25%float
                         1.0%float "Cube_0_1_3") /\
   count nat (is_disconnect nat)
         (trace Py.str_of_ints
                (failing_after nat Z (list Z) 10
                   (obliging nat Z (list Z) 7%nat 1%Z [1%Z])))
     = 0%nat).
Proof. repeat split; vm_compute; reflexivity. Qed.

(** C7 as the code has it, in a run that completes and in one that is cut
    short. *)
Lemma disconnect_at_the_end_of_a_complete_run :
  (exists (conn : nat) pre,
      trace Py.str_of_ints (obliging nat Z (list Z) 7%nat 1%Z [1%Z])
        = pre ++ [Disconnect conn] /\
      count nat (is_disconnect nat) pre = 0%nat) /\
  count nat (is_disconnect nat)
        (trace Py.str_of_ints (unreachable nat Z (list Z) 7%nat)) = 0%nat.
Proof.
  split.
  - destruct (disconnect_only_when_nothing_raises nat Z (list Z)
                Py.str_of_ints (obliging nat Z (list Z) 7%nat 1%Z [1%Z]))
      as [H _].
    apply H. vm_compute. reflexivity.
  - destruct (disconnect_only_when_nothing_raises nat Z (list Z)
                Py.str_of_ints (unreachable nat Z (list Z) 7%nat))
      as [_ H].
    apply (H (Connect 7%nat "ws://localhost:9124")); vm_compute; reflexivity.
Defined.

(** C8 for two servers that answer differently. *)
Lemma same_calls_for_different_answers :
  (initial_segment nat
     (remote_calls nat
        (trace Py.str_of_ints (obliging nat Z (list Z) 7%nat 1%Z [1%Z])))
     (remote_calls nat
        (trace Py.str_of_ints
               (obliging nat Z (list Z) 7%nat 42%Z [41%Z; 42%Z])))
   \/
   initial_segment nat
     (remote_calls nat
        (trace Py.str_of_ints
               (obliging nat Z (list Z) 7%nat 42%Z [41%Z; 42%Z])))
     (remote_calls nat
        (trace Py.str_of_ints (obliging nat Z (list Z) 7%nat 1%Z [1%Z])))) /\
  (result Py.str_of_ints (obliging nat Z (list Z) 7%nat 1%Z [1%Z])
     = Done tt ->
   result Py.str_of_ints (obliging nat Z (list Z) 7%nat 42%Z [41%Z; 42%Z])
     = Done tt ->
   remote_calls nat
     (trace Py.str_of_ints (obliging nat Z (list Z) 7%nat 1%Z [1%Z])) =
   remote_calls nat
     (trace Py.str_of_ints
            (obliging nat Z (list Z) 7%nat 42%Z [41%Z; 42%Z])) /\
   exists ids1 ids2,
     trace Py.str_of_ints (obliging nat Z (list Z) 7%nat 1%Z [1%Z]) =
       full_calls nat 7%nat (found (list Z) Py.str_of_ints ids1) /\
     trace Py.str_of_ints
           (obliging nat Z (list Z) 7%nat 42%Z [41%Z; 42%Z]) =
       full_calls nat 7%nat (found (list Z) Py.str_of_ints ids2)).
Proof.
  apply (calls_independent_of_answers nat Z (list Z) Py.str_of_ints
           (obliging nat Z (list Z) 7%nat 1%Z [1%Z])
           (obliging nat Z (list Z) 7%nat 42%Z [41%Z; 42%Z])
           7%nat); reflexivity.
Defined.

(** C9 in a world in which every call returns. *)
Lemma one_camera_of_a_complete_run :
  count nat (is_spawn_camera nat)
        (trace Py.str_of_ints (obliging nat Z (list Z) 7%nat 1%Z [1%Z]))
    = 1%nat.
Proof.
  destruct (one_camera_before_cubes nat Z (list Z) Py.str_of_ints
              (obliging nat Z (list Z) 7%nat 1%Z [1%Z])) as (_ & _ & _ & H).
  apply H. vm_compute. reflexivity.
Defined.

(** C10 for the last cube of a complete run, at the corner
    (2.25, 2.25, 2.25). *)
Lemma last_cube_size_and_bounds :
  1.0%float = 1.0%float /\
  ((-2.25) <=? 2.25)%float = true /\ (2.25 <=? 2.25)%float = true /\
  ((-2.25) <=? 2.25)%float = true /\ (2.25 <=? 2.25)%float = true /\
  ((-2.25) <=? 2.25)%float = true /\ (2.25 <=? 2.25)%float = true.
Proof.
  apply (cube_size_and_bounds nat Z (list Z) Py.str_of_ints
           (obliging nat Z (list Z) 7%nat 1%Z [1%Z]) 7%nat
           2.25%float 2.25%float 2.25%float 1.0%float "Cube_3_3_3").
  unfold trace. vm_compute. do 66 right. left. reflexivity.
Defined.

(** X1 in a world in which every call returns: the line printed is the
    list the world answered. *)
Lemma printed_line_of_a_complete_run :
  exists (conn : nat) (camera_ids : list Z),
    obliging nat Z (list Z) 7%nat 1%Z [41%Z; 42%Z] [] NewClient = Some conn /\
    obliging nat Z (list Z) 7%nat 1%Z [41%Z; 42%Z]
             (calls_before_request nat conn) (RequestCameras conn)
      = Some camera_ids /\
    trace Py.str_of_ints (obliging nat Z (list Z) 7%nat 1%Z [41%Z; 42%Z]) =
      calls_before_request nat conn
        ++ [RequestCameras conn;
            Print ("Found cameras: " ++ Py.str_of_ints camera_ids)%string;
            Disconnect conn] /\
    count nat (is_print nat)
          (trace Py.str_of_ints
                 (obliging nat Z (list Z) 7%nat 1%Z [41%Z; 42%Z])) = 1%nat.
Proof.
  destruct (printed_line_is_the_answer nat Z (list Z) Py.str_of_ints
              (obliging nat Z (list Z) 7%nat 1%Z [41%Z; 42%Z])) as [_ H].
  apply H. vm_compute. reflexivity.
Defined.

(** X2 for two servers that return different identifiers and the same
    camera list. *)
Lemma same_trace_for_different_spawn_ids :
  trace Py.str_of_ints (obliging nat Z (list Z) 7%nat 1%Z [1%Z]) =
  trace Py.str_of_ints (obliging nat Z (list Z) 7%nat 42%Z [1%Z]).
Proof.
  apply (spawn_ids_are_never_used nat Z (list Z) Py.str_of_ints
           (obliging nat Z (list Z) 7%nat 1%Z [1%Z])
           (obliging nat Z (list Z) 7%nat 42%Z [1%Z]) 7%nat);
    vm_compute; reflexivity.
Defined.

(** X3 at two equal names. *)
Lemma cube_name_injective_at_1_2_3 : 1%Z = 1%Z /\ 2%Z = 2%Z /\ 3%Z = 3%Z.
Proof. apply (cube_name_injective 1 2 3 1 2 3). reflexivity. Defined.

(** X6 for the cube of indices (1, 2, 3), of rank 27. *)
Lemma rank_of_cube_1_2_3 :
  exists conn : nat,
    nth_error
      (filter (is_spawn_cube nat)
         (trace Py.str_of_ints (obliging nat Z (list Z) 7%nat 1%Z [1%Z])))
      (loop_rank 1 2 3)
    = Some (SpawnCube conn
              (Py.float_of_int 1 * SPACING - offset)%float
              (Py.float_of_int 2 * SPACING - offset)%float
              (Py.float_of_int 3 * SPACING - offset)%float
              1.0%float (cube_name 1 2 3)).
Proof.
  apply (cube_rank_in_a_complete_run nat Z (list Z) Py.str_of_ints
           (obliging nat Z (list Z) 7%nat 1%Z [1%Z]) 1 2 3);
    try (unfold LATTICE_SIZE; lia).
  vm_compute. reflexivity.
Defined.

(** X7 when the eleventh call of the run, the cube of indices (0, 1, 3),
    raises. *)
Lemma trace_cut_short_at_cube_0_1_3 :
  trace Py.str_of_ints
        (failing_after nat Z (list Z) 10
           (obliging nat Z (list Z) 7%nat 1%Z [1%Z])) =
  NewClient :: Connect 7%nat "ws://localhost:9124" :: camera_call nat 7%nat
    :: firstn (S (loop_rank 0 1 3)) (lattice_calls nat 7%nat).
Proof.
  apply (run_cut_short_at_a_cube nat Z (list Z) Py.str_of_ints
           (failing_after nat Z (list Z) 10
              (obliging nat Z (list Z) 7%nat 1%Z [1%Z])) 7%nat 0 1 3);
    try (unfold LATTICE_SIZE; lia).
  vm_compute. reflexivity.
Defined.
